(** * LegacyGraph-MCP, data/legacy_project/main.cpp

    A shallow embedding of the legacy "Bank System" entry file and the
    properties of its control loop.

    The file has one global ([global_counter]), three collaborator
    functions that are declared but defined in no translation unit of the
    repository ([log_transaction], [calculate_interest], [update_balance]),
    and three functions with a body: [process_client], [main_loop] and
    [main].

    Modelling decisions.
    - [int] is a 32-bit two's complement integer, kept as a [Z] together
      with the normalisation [CInt.wrap]; [global_counter++] is
      [CInt.incr].
    - The collaborators are parameters of the development.  They act on
      the [Store] (the global counter, which has external linkage, and an
      arbitrary external world) and are assumed to return.
    - Every call made by the core, every read and every write of the
      counter by the core, and the line printed by [main], is appended to
      a ghost [trace] together with the value that [global_counter] has at
      that moment.  The collaborators cannot reach the trace.
    - [main_loop] is recursive without a structural argument, so it takes
      fuel (the number of activations that may be stacked); running out of
      fuel is [None].  Results about a run always show that enough fuel
      yields [Some]. *)

From Stdlib Require Import ZArith List String Bool Lia Wellfounded.
Import ListNotations.
Open Scope Z_scope.

(** ** The C++ [int] *)

Module CInt.

Definition min_int : Z := -2147483648.
Definition max_int : Z := 2147483647.
Definition modulus : Z := 4294967296.

Definition in_range (z : Z) : Prop := min_int <= z <= max_int.

(** Two's complement normalisation of a mathematical integer. *)
Definition wrap (z : Z) : Z := (z - min_int) mod modulus + min_int.

(** [x++] on an [int] lvalue: the stored value. *)
Definition incr (z : Z) : Z := wrap (z + 1).

(** [a < b] on two [int]s. *)
Definition lt (a b : Z) : bool := a <? b.

End CInt.

(** ** Observations *)

(** The functions of the translation unit; the last three have no body. *)
Inductive Fn : Type :=
| f_main
| f_main_loop
| f_process_client
| f_log_transaction
| f_calculate_interest
| f_update_balance.

Definition Fn_eqb (a b : Fn) : bool :=
  match a, b with
  | f_main, f_main
  | f_main_loop, f_main_loop
  | f_process_client, f_process_client
  | f_log_transaction, f_log_transaction
  | f_calculate_interest, f_calculate_interest
  | f_update_balance, f_update_balance => true
  | _, _ => false
  end.

Inductive Event : Type :=
| EvCall (f : Fn)          (* control enters [f] *)
| EvOutput (line : string) (* a line is written to [std::cout] *)
| EvRead                   (* the core reads [global_counter] *)
| EvWrite.                 (* the core has written [global_counter] *)

(** An event and the value of [global_counter] when it happens. *)
Record Obs : Type := mkObs { event : Event; seen : Z }.

Definition is_call (f : Fn) (o : Obs) : bool :=
  match event o with EvCall g => Fn_eqb f g | _ => false end.

Definition is_read (o : Obs) : bool :=
  match event o with EvRead => true | _ => false end.

Definition is_write (o : Obs) : bool :=
  match event o with EvWrite => true | _ => false end.

Definition is_collaborator (f : Fn) : bool :=
  match f with
  | f_log_transaction | f_calculate_interest | f_update_balance => true
  | _ => false
  end.

(** How many times [f] is entered in a trace. *)
Definition count_calls (f : Fn) (tr : list Obs) : nat :=
  List.length (filter (is_call f) tr).

(** The counter values seen at the successive entries of [f]. *)
Definition seen_at_calls (f : Fn) (tr : list Obs) : list Z :=
  map seen (filter (is_call f) tr).

Definition seen_at_reads (tr : list Obs) : list Z :=
  map seen (filter is_read tr).

Definition count_writes (tr : list Obs) : nat :=
  List.length (filter is_write tr).

(** The collaborator calls of a trace, in order. *)
Fixpoint collaborator_calls (tr : list Obs) : list Fn :=
  match tr with
  | [] => []
  | o :: tr' =>
      match event o with
      | EvCall f =>
          if is_collaborator f then f :: collaborator_calls tr'
          else collaborator_calls tr'
      | _ => collaborator_calls tr'
      end
  end.

(** The lines written to standard output, in order. *)
Fixpoint outputs (tr : list Obs) : list string :=
  match tr with
  | [] => []
  | o :: tr' =>
      match event o with
      | EvOutput l => l :: outputs tr'
      | _ => outputs tr'
      end
  end.

(** [non_decreasing l]: no element is smaller than its predecessor. *)
Fixpoint non_decreasing (l : list Z) : bool :=
  match l with
  | [] => true
  | x :: l' =>
      match l' with
      | [] => true
      | y :: _ => (x <=? y) && non_decreasing l'
      end
  end.

(** [only_incremented_at_writes c tr]: starting from the value [c], the
    counter seen along [tr] changes at [EvWrite] observations only, and
    there by exactly one. *)
Fixpoint only_incremented_at_writes (c : Z) (tr : list Obs) : bool :=
  match tr with
  | [] => true
  | o :: tr' =>
      (if is_write o then seen o =? c + 1 else seen o =? c)
      && only_incremented_at_writes (seen o) tr'
  end.

(** ** The program state *)

(** What a collaborator can reach: the global counter (it has external
    linkage) and the rest of the world. *)
Record Store (World : Type) : Type :=
  mkStore { global_counter : Z; extern : World }.

Arguments mkStore {World} _ _.
Arguments global_counter {World} _.
Arguments extern {World} _.

(** The store and the ghost trace, oldest observation first. *)
Record State (World : Type) : Type :=
  mkState { store : Store World; trace : list Obs }.

Arguments mkState {World} _ _.
Arguments store {World} _.
Arguments trace {World} _.

(** A computation of the core: it may run out of fuel, otherwise it
    returns a value and the next state. *)
Definition M (World A : Type) : Type :=
  State World -> option (A * State World).

Definition ret {World A : Type} (a : A) : M World A :=
  fun s => Some (a, s).

Definition bind {World A B : Type} (m : M World A) (k : A -> M World B)
  : M World B :=
  fun s => match m s with
           | Some (a, s') => k a s'
           | None => None
           end.

Definition out_of_fuel {World A : Type} : M World A := fun _ => None.

Declare Scope prog_scope.
Delimit Scope prog_scope with prog.
Notation "x <- m ;; k" := (bind m (fun x => k))
  (at level 61, m at next level, right associativity) : prog_scope.
Notation "m ;; k" := (bind m (fun _ => k))
  (at level 61, right associativity) : prog_scope.

(** Append an observation carrying the current counter. *)
Definition observe {World : Type} (e : Event) : M World unit :=
  fun s =>
    Some (tt, mkState (store s)
                      (trace s ++ [mkObs e (global_counter (store s))])).

(** A call of a function defined elsewhere: the call is observed, then the
    callee transforms the store. *)
Definition call_extern {World : Type} (f : Fn)
           (body : Store World -> Store World) : M World unit :=
  (observe (EvCall f) ;;
   fun s => Some (tt, mkState (body (store s)) (trace s)))%prog.

(** The value of [global_counter], as read by the core. *)
Definition read_counter {World : Type} : M World Z :=
  (observe EvRead ;;
   fun s => Some (global_counter (store s), s))%prog.

(** [global_counter++;] as a statement: the counter is replaced by its
    successor, and the write is observed with the new value. *)
Definition incr_counter {World : Type} : M World unit :=
  ((fun s =>
      Some (tt, mkState (mkStore (CInt.incr (global_counter (store s)))
                                 (extern (store s)))
                        (trace s))) ;;
   observe EvWrite)%prog.

(** [std::cout << line << std::endl]. *)
Definition put_line {World : Type} (line : string) : M World unit :=
  observe (EvOutput line).

(** ** The functions of main.cpp *)

Module Bank.

Section Program.

Variable World : Type.

(** [void log_transaction(); void calculate_interest();
     void update_balance();] are declared and never defined. *)
Variables log_transaction calculate_interest update_balance
  : Store World -> Store World.

Definition process_client : M World unit :=
  (observe (EvCall f_process_client) ;;
   call_extern f_log_transaction log_transaction ;;
   call_extern f_calculate_interest calculate_interest ;;
   call_extern f_update_balance update_balance)%prog.

(** [main_loop] with the literal of its comparison as a parameter. *)
Fixpoint main_loop_upto (limit : Z) (fuel : nat) : M World unit :=
  match fuel with
  | O => out_of_fuel
  | S fuel' =>
      (observe (EvCall f_main_loop) ;;
       process_client ;;
       c <- read_counter ;;
       if CInt.lt c limit then
         incr_counter ;;
         main_loop_upto limit fuel'
       else
         ret tt)%prog
  end.

Definition main_loop (fuel : nat) : M World unit :=
  main_loop_upto 10 fuel.

Definition main (fuel : nat) : M World Z :=
  (observe (EvCall f_main) ;;
   put_line "Starting Bank System..." ;;
   main_loop fuel ;;
   ret 0)%prog.

(** Process start: [int global_counter = 0;], nothing observed yet. *)
Definition initial (w : World) : State World :=
  mkState (mkStore 0 w) [].

End Program.

Arguments process_client {World} _ _ _.
Arguments main_loop_upto {World} _ _ _ _ _.
Arguments main_loop {World} _ _ _ _.
Arguments main {World} _ _ _ _.
Arguments initial {World} _.

End Bank.

(** ** Expected observations and stores *)

(** What one pass of [process_client] adds to the trace when the counter
    is [c] throughout. *)
Definition cycle_obs (c : Z) : list Obs :=
  [ mkObs (EvCall f_process_client) c;
    mkObs (EvCall f_log_transaction) c;
    mkObs (EvCall f_calculate_interest) c;
    mkObs (EvCall f_update_balance) c ].

(** One activation of [main_loop] up to and including its test. *)
Definition activation_obs (c : Z) : list Obs :=
  mkObs (EvCall f_main_loop) c :: cycle_obs c ++ [mkObs EvRead c].

(** An activation at counter [c] that recurses [n] more times. *)
Fixpoint run_obs (n : nat) (c : Z) : list Obs :=
  match n with
  | O => activation_obs c
  | S n' => activation_obs c ++ mkObs EvWrite (c + 1) :: run_obs n' (c + 1)
  end.

(** The number of recursive calls an activation at counter [c] makes. *)
Definition recursions_left (limit c : Z) : nat := Z.to_nat (limit - c).

Module Expected.

Section ExpectedStore.

Variable World : Type.
Variables log_transaction calculate_interest update_balance
  : Store World -> Store World.

(** The store after the three collaborators, in call order. *)
Definition cycle_store (st : Store World) : Store World :=
  update_balance (calculate_interest (log_transaction st)).

Definition bump (st : Store World) : Store World :=
  mkStore (CInt.incr (global_counter st)) (extern st).

Fixpoint run_store (n : nat) (st : Store World) : Store World :=
  match n with
  | O => cycle_store st
  | S n' => run_store n' (bump (cycle_store st))
  end.

End ExpectedStore.

Arguments cycle_store {World} _ _ _ _.
Arguments bump {World} _.
Arguments run_store {World} _ _ _ _ _.

End Expected.

(** A collaborator that leaves [global_counter] as it found it. *)
Definition preserves_counter {World : Type}
           (f : Store World -> Store World) : Prop :=
  forall st, global_counter (f st) = global_counter st.

(** ** The Loop Controller as the specification words it

    States [{running, done}] over the counter: [running -> running] while
    the counter is below the threshold, incrementing it, and
    [running -> done] once the counter has reached the threshold. *)

Inductive Phase : Type := running | done.

Definition spec_controller_step (threshold : Z) (cfg : Phase * Z)
  : Phase * Z :=
  match cfg with
  | (running, c) =>
      if c <? threshold then (running, c + 1) else (done, c)
  | (done, c) => (done, c)
  end.

Fixpoint spec_controller_run (threshold : Z) (n : nat) (cfg : Phase * Z)
  : Phase * Z :=
  match n with
  | O => cfg
  | S n' => spec_controller_run threshold n' (spec_controller_step threshold cfg)
  end.

(** The counter [c'] of a recursive activation against the counter [c] of
    the activation that made the call. *)
Definition recursive_call (limit : Z) (c' c : Z) : Prop :=
  c < limit /\ c' = c + 1.

(** ** Sample collaborators

    Three stand-ins with a visible effect on the world, used to
    instantiate the results below. *)

Definition sample_log_transaction (st : Store Z) : Store Z :=
  mkStore (global_counter st) (extern st + 1).

Definition sample_calculate_interest (st : Store Z) : Store Z :=
  mkStore (global_counter st) (2 * extern st).

Definition sample_update_balance (st : Store Z) : Store Z :=
  mkStore (global_counter st) (extern st + global_counter st).

(** The core linked against the sample collaborators. *)
Definition sample_process_client : M Z unit :=
  Bank.process_client
    sample_log_transaction sample_calculate_interest sample_update_balance.

Definition sample_main_loop_upto (limit : Z) (fuel : nat) : M Z unit :=
  Bank.main_loop_upto
    sample_log_transaction sample_calculate_interest sample_update_balance
    limit fuel.

Definition sample_main_loop (fuel : nat) : M Z unit :=
  Bank.main_loop
    sample_log_transaction sample_calculate_interest sample_update_balance
    fuel.

Definition sample_main (fuel : nat) : M Z Z :=
  Bank.main
    sample_log_transaction sample_calculate_interest sample_update_balance
    fuel.

(** A state in the middle of a run: counter 4, world 100, empty trace. *)
Definition sample_midway : State Z := mkState (mkStore 4 100) [].

(** ** Collaborators that touch the counter

    Nothing in main.cpp keeps a collaborator from writing
    [global_counter]; the definitions below describe what the core then
    does. *)

Module Observed.

Section ObservedActivation.

Variable World : Type.
Variables log_transaction calculate_interest update_balance
  : Store World -> Store World.

(** What one activation of [main_loop] adds to the trace, up to and
    including its test, when it is entered with the store [st]: every
    observation carries the counter as the collaborators have left it. *)
Definition activation (st : Store World) : list Obs :=
  let st1 := log_transaction st in
  let st2 := calculate_interest st1 in
  let st3 := update_balance st2 in
  [ mkObs (EvCall f_main_loop) (global_counter st);
    mkObs (EvCall f_process_client) (global_counter st);
    mkObs (EvCall f_log_transaction) (global_counter st);
    mkObs (EvCall f_calculate_interest) (global_counter st1);
    mkObs (EvCall f_update_balance) (global_counter st2);
    mkObs EvRead (global_counter st3) ].

End ObservedActivation.

Arguments activation {World} _ _ _ _.

End Observed.

(** A collaborator that never lowers [global_counter] and leaves an
    [int] in it. *)
Definition raises_counter {World : Type}
           (f : Store World -> Store World) : Prop :=
  forall st,
    CInt.in_range (global_counter st) ->
    global_counter st <= global_counter (f st) /\
    CInt.in_range (global_counter (f st)).

(** A collaborator that leaves an [int] in [global_counter]. *)
Definition keeps_int {World : Type}
           (f : Store World -> Store World) : Prop :=
  forall st,
    CInt.in_range (global_counter st) ->
    CInt.in_range (global_counter (f st)).

(** [writes_follow_reads prev tr]: every [EvWrite] of [tr] comes directly
    after an [EvRead] (whose value is [prev] for a write at the head),
    the value read was below 10, and the value written is that value
    plus one. *)
Fixpoint writes_follow_reads (prev : option Z) (tr : list Obs) : bool :=
  match tr with
  | [] => true
  | o :: tr' =>
      match event o with
      | EvWrite =>
          match prev with
          | Some r => (r <? 10) && (seen o =? r + 1)
          | None => false
          end
          && writes_follow_reads None tr'
      | EvRead => writes_follow_reads (Some (seen o)) tr'
      | _ => writes_follow_reads None tr'
      end
  end.

(** The three collaborator calls of one cycle. *)
Definition pipeline_calls : list Fn :=
  [f_log_transaction; f_calculate_interest; f_update_balance].

(** A collaborator that works on the external world only. *)
Definition on_world {World : Type} (g : World -> World)
           (st : Store World) : Store World :=
  mkStore (global_counter st) (g (extern st)).

(** An [update_balance] that puts [global_counter] back to 0. *)
Definition resetting_update_balance (st : Store Z) : Store Z :=
  mkStore 0 (extern st + global_counter st).

(** A [calculate_interest] that skips a value of [global_counter]. *)
Definition skipping_calculate_interest (st : Store Z) : Store Z :=
  mkStore (Z.min (global_counter st + 1) CInt.max_int) (2 * extern st).

(** The core linked against collaborators that touch the counter. *)
Definition skipping_main_loop (fuel : nat) : M Z unit :=
  Bank.main_loop
    sample_log_transaction skipping_calculate_interest sample_update_balance
    fuel.

Definition skipping_main (fuel : nat) : M Z Z :=
  Bank.main
    sample_log_transaction skipping_calculate_interest sample_update_balance
    fuel.

Definition resetting_main_loop (fuel : nat) : M Z unit :=
  Bank.main_loop
    sample_log_transaction sample_calculate_interest resetting_update_balance
    fuel.

Definition resetting_main (fuel : nat) : M Z Z :=
  Bank.main
    sample_log_transaction sample_calculate_interest resetting_update_balance
    fuel.

(** The state in which [skipping_main_loop 11] and [skipping_main 11]
    return when started on world 100. *)
Definition skipping_main_loop_end : State Z :=
  Eval vm_compute in
    match skipping_main_loop 11 (Bank.initial 100) with
    | Some (_, s) => s
    | None => Bank.initial 100
    end.

Definition skipping_main_end : State Z :=
  Eval vm_compute in
    match skipping_main 11 (Bank.initial 100) with
    | Some (_, s) => s
    | None => Bank.initial 100
    end.

(** * Properties *)

(** ** Facts about [int] *)

Module CIntFacts.

Lemma wrap_in_range (z : Z) : CInt.in_range (CInt.wrap z).
Proof.
  unfold CInt.in_range, CInt.wrap, CInt.min_int, CInt.max_int, CInt.modulus.
  pose proof (Z.mod_pos_bound (z - -2147483648) 4294967296 eq_refl).
  lia.
Qed.

Lemma wrap_small (z : Z) : CInt.in_range z -> CInt.wrap z = z.
Proof.
  unfold CInt.in_range, CInt.wrap, CInt.min_int, CInt.max_int, CInt.modulus.
  intros Hz; rewrite Z.mod_small; lia.
Qed.

(** Below a bound that is itself an [int], the increment is exact. *)
Lemma incr_below (z bound : Z) :
  CInt.in_range z -> CInt.in_range bound -> z < bound ->
  CInt.incr z = z + 1.
Proof.
  unfold CInt.incr; intros Hz Hb Hlt; apply wrap_small.
  unfold CInt.in_range in *; lia.
Qed.

Lemma in_range_succ (z bound : Z) :
  CInt.in_range z -> CInt.in_range bound -> z < bound ->
  CInt.in_range (z + 1).
Proof. unfold CInt.in_range; lia. Qed.

Lemma ten_in_range : CInt.in_range 10.
Proof. unfold CInt.in_range, CInt.min_int, CInt.max_int; lia. Qed.

Lemma zero_in_range : CInt.in_range 0.
Proof. unfold CInt.in_range, CInt.min_int, CInt.max_int; lia. Qed.

End CIntFacts.

(** ** Facts about traces *)

Lemma count_calls_app (f : Fn) (t1 t2 : list Obs) :
  count_calls f (t1 ++ t2) = (count_calls f t1 + count_calls f t2)%nat.
Proof. unfold count_calls; now rewrite filter_app, length_app. Qed.

Lemma count_calls_main_loop_run_obs (n : nat) (c : Z) :
  count_calls f_main_loop (run_obs n c) = S n.
Proof.
  revert c; induction n as [|n IH]; intros c; [reflexivity|].
  cbn [run_obs]. rewrite count_calls_app.
  change (mkObs EvWrite (c + 1) :: run_obs n (c + 1))
    with ([mkObs EvWrite (c + 1)] ++ run_obs n (c + 1)).
  rewrite count_calls_app, IH. reflexivity.
Qed.

Lemma count_calls_process_client_run_obs (n : nat) (c : Z) :
  count_calls f_process_client (run_obs n c) = S n.
Proof.
  revert c; induction n as [|n IH]; intros c; [reflexivity|].
  cbn [run_obs]. rewrite count_calls_app.
  change (mkObs EvWrite (c + 1) :: run_obs n (c + 1))
    with ([mkObs EvWrite (c + 1)] ++ run_obs n (c + 1)).
  rewrite count_calls_app, IH. reflexivity.
Qed.

(** ** Facts about the specification's machine *)

Lemma spec_controller_run_running (threshold : Z) (k : nat) (c : Z) :
  (k <= recursions_left threshold c)%nat ->
  spec_controller_run threshold k (running, c) = (running, c + Z.of_nat k).
Proof.
  unfold recursions_left.
  revert c; induction k as [|k IH]; intros c Hk.
  - cbn. now rewrite Z.add_0_r.
  - cbn [spec_controller_run spec_controller_step].
    destruct (Z.ltb_spec c threshold) as [Hlt|Hge]; [|lia].
    rewrite IH by lia. f_equal; lia.
Qed.

Lemma spec_controller_run_add (threshold : Z) (j k : nat) (cfg : Phase * Z) :
  spec_controller_run threshold (j + k) cfg =
  spec_controller_run threshold k (spec_controller_run threshold j cfg).
Proof.
  revert cfg; induction j as [|j IH]; intros cfg; [reflexivity|].
  cbn [Nat.add spec_controller_run]. apply IH.
Qed.

Lemma recursive_call_wf (limit : Z) : well_founded (recursive_call limit).
Proof.
  apply (well_founded_lt_compat Z (fun c => recursions_left limit c)).
  intros c' c [Hlt ->]. unfold recursions_left. lia.
Qed.

(** ** The core, for collaborators that leave the counter alone *)

Section Core.

Context {World : Type}.
Variables log_transaction calculate_interest update_balance
  : Store World -> Store World.

Hypothesis log_transaction_frame : preserves_counter log_transaction.
Hypothesis calculate_interest_frame : preserves_counter calculate_interest.
Hypothesis update_balance_frame : preserves_counter update_balance.

Local Abbreviation process_client :=
  (Bank.process_client log_transaction calculate_interest update_balance).
Local Abbreviation main_loop_upto :=
  (Bank.main_loop_upto log_transaction calculate_interest update_balance).
Local Abbreviation main_loop :=
  (Bank.main_loop log_transaction calculate_interest update_balance).
Local Abbreviation main :=
  (Bank.main log_transaction calculate_interest update_balance).
Local Abbreviation cycle_store :=
  (Expected.cycle_store log_transaction calculate_interest update_balance).
Local Abbreviation run_store :=
  (Expected.run_store log_transaction calculate_interest update_balance).

Lemma cycle_store_counter (st : Store World) :
  global_counter (cycle_store st) = global_counter st.
Proof.
  unfold Expected.cycle_store.
  now rewrite update_balance_frame, calculate_interest_frame,
    log_transaction_frame.
Qed.

(** One pass of [process_client], in full. *)
Lemma process_client_run (s : State World) :
  process_client s =
  Some (tt, mkState (cycle_store (store s))
                    (trace s ++ cycle_obs (global_counter (store s)))).
Proof.
  unfold Bank.process_client, call_extern, observe, bind,
    Expected.cycle_store, cycle_obs.
  cbn.
  rewrite calculate_interest_frame, log_transaction_frame.
  repeat rewrite <- app_assoc. reflexivity.
Qed.

(** One activation of [main_loop], up to its recursive call. *)
Lemma main_loop_upto_step (limit : Z) (fuel : nat) (s : State World) :
  main_loop_upto limit (S fuel) s =
  let c := global_counter (store s) in
  if c <? limit then
    main_loop_upto limit fuel
      (mkState (Expected.bump (cycle_store (store s)))
               (trace s ++ activation_obs c ++ [mkObs EvWrite (CInt.incr c)]))
  else
    Some (tt, mkState (cycle_store (store s)) (trace s ++ activation_obs c)).
Proof.
  cbn [Bank.main_loop_upto].
  unfold bind at 1. unfold observe at 1. cbn [store trace].
  unfold bind at 1. rewrite process_client_run. cbn [store trace].
  unfold bind at 1, read_counter, bind at 1, observe at 1.
  cbn [store trace]. rewrite cycle_store_counter.
  unfold CInt.lt. cbv zeta.
  destruct (global_counter (store s) <? limit).
  - unfold bind at 1, incr_counter, bind at 1, observe.
    cbn [store trace global_counter extern]. unfold Expected.bump.
    rewrite cycle_store_counter.
    unfold activation_obs. repeat rewrite <- app_assoc. reflexivity.
  - unfold ret, activation_obs. repeat rewrite <- app_assoc. reflexivity.
Qed.

(** The whole recursion: enough fuel gives the result, in closed form. *)
Lemma main_loop_upto_run (limit : Z) (Hlimit : CInt.in_range limit) :
  forall (n fuel : nat) (s : State World),
    CInt.in_range (global_counter (store s)) ->
    recursions_left limit (global_counter (store s)) = n ->
    (n < fuel)%nat ->
    main_loop_upto limit fuel s =
    Some (tt, mkState (run_store n (store s))
                      (trace s ++ run_obs n (global_counter (store s)))).
Proof.
  induction n as [|n IH]; intros fuel s Hc Hn Hfuel;
    (destruct fuel as [|fuel]; [lia|]);
    rewrite main_loop_upto_step; cbv zeta;
    unfold recursions_left in Hn;
    destruct (Z.ltb_spec (global_counter (store s)) limit) as [Hlt|Hge];
    try lia.
  - reflexivity.
  - rewrite (CIntFacts.incr_below _ limit) by assumption.
    rewrite IH; cbn [store trace global_counter Expected.bump].
    + rewrite cycle_store_counter.
      rewrite (CIntFacts.incr_below _ limit) by assumption.
      cbn [Expected.run_store run_obs]. unfold Expected.bump.
      rewrite cycle_store_counter.
      rewrite (CIntFacts.incr_below _ limit) by assumption.
      repeat rewrite <- app_assoc. reflexivity.
    + rewrite cycle_store_counter. apply CIntFacts.wrap_in_range.
    + rewrite cycle_store_counter.
      rewrite (CIntFacts.incr_below _ limit) by assumption.
      unfold recursions_left. lia.
    + lia.
Qed.

(** With less fuel than activations the recursion is cut off. *)
Lemma main_loop_upto_cut (limit : Z) (Hlimit : CInt.in_range limit) :
  forall (fuel : nat) (s : State World),
    CInt.in_range (global_counter (store s)) ->
    (fuel <= recursions_left limit (global_counter (store s)))%nat ->
    main_loop_upto limit fuel s = None.
Proof.
  induction fuel as [|fuel IH]; intros s Hc Hfuel; [reflexivity|].
  rewrite main_loop_upto_step; cbv zeta.
  unfold recursions_left in Hfuel.
  destruct (Z.ltb_spec (global_counter (store s)) limit) as [Hlt|Hge];
    [|lia].
  apply IH; cbn [store global_counter Expected.bump];
    rewrite cycle_store_counter;
    rewrite (CIntFacts.incr_below _ limit) by assumption.
  - now apply (CIntFacts.in_range_succ _ limit).
  - unfold recursions_left. lia.
Qed.

(** The counter when the recursion is over. *)
Lemma run_store_counter (limit : Z) (Hlimit : CInt.in_range limit) :
  forall (n : nat) (st : Store World),
    CInt.in_range (global_counter st) ->
    recursions_left limit (global_counter st) = n ->
    global_counter (run_store n st) = Z.max (global_counter st) limit.
Proof.
  induction n as [|n IH]; intros st Hc Hn; unfold recursions_left in Hn;
    cbn [Expected.run_store].
  - rewrite cycle_store_counter. lia.
  - assert (Hlt : global_counter st < limit) by lia.
    rewrite IH; unfold Expected.bump; cbn [global_counter];
      rewrite cycle_store_counter;
      rewrite (CIntFacts.incr_below _ limit) by assumption.
    + lia.
    + now apply (CIntFacts.in_range_succ _ limit).
    + unfold recursions_left. lia.
Qed.

(** A run of [main_loop] entered with the counter at 0. *)
Lemma main_loop_from_zero (s : State World) (fuel : nat) :
  global_counter (store s) = 0 ->
  (11 <= fuel)%nat ->
  main_loop fuel s =
  Some (tt, mkState (run_store 10 (store s)) (trace s ++ run_obs 10 0)).
Proof.
  intros H0 Hfuel. unfold Bank.main_loop.
  rewrite (main_loop_upto_run 10 CIntFacts.ten_in_range 10 fuel s);
    rewrite ?H0; try reflexivity; try lia.
  apply CIntFacts.zero_in_range.
Qed.

Lemma run_store_from_zero (st : Store World) :
  global_counter st = 0 -> global_counter (run_store 10 st) = 10.
Proof.
  intros H0.
  rewrite (run_store_counter 10 CIntFacts.ten_in_range 10 st);
    rewrite ?H0; try reflexivity.
  apply CIntFacts.zero_in_range.
Qed.

(** The whole process, from its start. *)
Lemma main_from_start (w : World) (fuel : nat) :
  (11 <= fuel)%nat ->
  main fuel (Bank.initial w) =
  Some (0, mkState (run_store 10 (mkStore 0 w))
                   ([ mkObs (EvCall f_main) 0;
                      mkObs (EvOutput "Starting Bank System...") 0 ]
                    ++ run_obs 10 0)).
Proof.
  intros Hfuel. unfold Bank.main, put_line.
  unfold bind at 1, observe at 1. cbn [store trace Bank.initial].
  unfold bind at 1, observe at 1. cbn [store trace global_counter app].
  unfold bind at 1. rewrite main_loop_from_zero by (trivial; reflexivity).
  reflexivity.
Qed.

(** [main] returns only when the stack allowance covers the run. *)
Lemma main_returns_inv (w : World) (fuel : nat) (r : Z) (s' : State World) :
  main fuel (Bank.initial w) = Some (r, s') -> (11 <= fuel)%nat.
Proof.
  intros Hrun.
  destruct (Nat.le_gt_cases 11 fuel) as [Hle|Hgt]; [exact Hle|exfalso].
  revert Hrun. unfold Bank.main, put_line.
  unfold bind at 1, observe at 1. cbn [store trace Bank.initial].
  unfold bind at 1, observe at 1. cbn [store trace global_counter app].
  unfold bind at 1, Bank.main_loop.
  rewrite (main_loop_upto_cut 10 CIntFacts.ten_in_range).
  - discriminate.
  - apply CIntFacts.zero_in_range.
  - unfold recursions_left. cbn [store global_counter]. lia.
Qed.

(** ** The claims *)

(** C1.  A full run of the Loop Controller entered with the shared
    counter at 0 (threshold 10) returns, and the Cycle Runner
    [process_client] is entered exactly 10 + 1 = 11 times during it. *)
Theorem cycle_runner_invoked_eleven_times (s : State World) (fuel : nat) :
  global_counter (store s) = 0 ->
  (11 <= fuel)%nat ->
  exists (s' : State World) (t : list Obs),
    main_loop fuel s = Some (tt, s') /\
    trace s' = trace s ++ t /\
    count_calls f_process_client t = 11%nat.
Proof.
  intros H0 Hfuel.
  exists (mkState (run_store 10 (store s)) (trace s ++ run_obs 10 0)),
    (run_obs 10 0).
  split; [now apply main_loop_from_zero|].
  split; reflexivity.
Qed.

(** C2.  Over a full run entered with the counter at 0, the values of
    [global_counter] seen at the successive observation points never
    decrease and never exceed 10, and when the loop is over the counter
    is exactly 10. *)
Theorem counter_monotone_bounded_final (s : State World) (fuel : nat) :
  global_counter (store s) = 0 ->
  (11 <= fuel)%nat ->
  exists (s' : State World) (t : list Obs),
    main_loop fuel s = Some (tt, s') /\
    trace s' = trace s ++ t /\
    non_decreasing (map seen t) = true /\
    Forall (fun o => 0 <= seen o <= 10) t /\
    global_counter (store s') = 10.
Proof.
  intros H0 Hfuel.
  exists (mkState (run_store 10 (store s)) (trace s ++ run_obs 10 0)),
    (run_obs 10 0).
  split; [now apply main_loop_from_zero|].
  split; [reflexivity|].
  split; [reflexivity|].
  split.
  - apply Forall_forall. intros o Ho.
    cbn in Ho. intuition (subst; cbn; lia).
  - cbn [store]. now apply run_store_from_zero.
Qed.

(** C3.  One activation of [main_loop]: it enters [process_client]
    exactly once, then reads the counter [c]; when [c < 10] it stores
    [c + 1] and behaves as a fresh activation of itself from there,
    otherwise it returns with the store as the cycle left it. *)
Theorem main_loop_activation (s : State World) (fuel : nat) :
  CInt.in_range (global_counter (store s)) ->
  let c := global_counter (store s) in
  exists s1 : State World,
    (observe (EvCall f_main_loop) ;; process_client)%prog s
      = Some (tt, s1) /\
    count_calls f_process_client (trace s1)
      = S (count_calls f_process_client (trace s)) /\
    global_counter (store s1) = c /\
    (c < 10 ->
     main_loop (S fuel) s =
     main_loop fuel
       (mkState (mkStore (c + 1) (extern (store s1)))
                (trace s1 ++ [mkObs EvRead c; mkObs EvWrite (c + 1)]))) /\
    (10 <= c ->
     main_loop (S fuel) s =
     Some (tt, mkState (store s1) (trace s1 ++ [mkObs EvRead c]))).
Proof.
  intros Hc c.
  exists (mkState (cycle_store (store s))
                  (trace s ++ mkObs (EvCall f_main_loop) c :: cycle_obs c)).
  split.
  { unfold bind at 1, observe at 1. rewrite process_client_run.
    cbn [store trace]. now rewrite <- app_assoc. }
  split.
  { cbn [trace]. rewrite count_calls_app. cbn. lia. }
  split; [apply cycle_store_counter|].
  unfold Bank.main_loop. rewrite main_loop_upto_step. cbv zeta.
  fold c. cbn [store trace]. split; intros Hcmp.
  - destruct (Z.ltb_spec c 10) as [_|Hge]; [|lia].
    unfold Expected.bump. rewrite cycle_store_counter. fold c.
    rewrite (CIntFacts.incr_below c 10 Hc CIntFacts.ten_in_range Hcmp).
    unfold activation_obs. do 2 f_equal.
    cbn [app]. repeat rewrite <- app_assoc. reflexivity.
  - destruct (Z.ltb_spec c 10) as [Hlt|_]; [lia|].
    unfold activation_obs.
    cbn [app]. repeat rewrite <- app_assoc. reflexivity.
Qed.

(** C4.  The Loop Controller terminates from every starting counter
    [c].  The specification's machine stays [running] for
    [recursions_left 10 c] steps, incrementing the counter, and is
    [done] one step later with the counter at [max c 10]; [main_loop]
    returns whenever its fuel exceeds that number of steps, with the
    same final counter and one activation (and one cycle) per machine
    step, and is cut off with less; the recursive-call relation on counters is
    well-founded. *)
Theorem loop_controller_terminates (s : State World) :
  CInt.in_range (global_counter (store s)) ->
  let c := global_counter (store s) in
  let n := recursions_left 10 c in
  (forall k : nat, (k <= n)%nat ->
     spec_controller_run 10 k (running, c) = (running, c + Z.of_nat k)) /\
  spec_controller_run 10 (S n) (running, c) = (done, Z.max c 10) /\
  (forall fuel : nat, (n < fuel)%nat ->
     exists (s' : State World) (t : list Obs),
       main_loop fuel s = Some (tt, s') /\
       trace s' = trace s ++ t /\
       count_calls f_main_loop t = S n /\
       count_calls f_process_client t = S n /\
       global_counter (store s') = Z.max c 10) /\
  (forall fuel : nat, (fuel <= n)%nat -> main_loop fuel s = None) /\
  well_founded (recursive_call 10).
Proof.
  intros Hc c n.
  assert (Hrun : forall k : nat, (k <= n)%nat ->
            spec_controller_run 10 k (running, c)
            = (running, c + Z.of_nat k)).
  { intros k Hk. now apply spec_controller_run_running. }
  split; [exact Hrun|].
  split.
  { replace (S n) with (n + 1)%nat by lia.
    rewrite spec_controller_run_add, Hrun by lia.
    cbn [spec_controller_run spec_controller_step].
    unfold n, recursions_left.
    destruct (Z.ltb_spec (c + Z.of_nat (Z.to_nat (10 - c))) 10); [lia|].
    f_equal. lia. }
  split.
  { intros fuel Hfuel.
    exists (mkState (run_store n (store s)) (trace s ++ run_obs n c)),
      (run_obs n c).
    split.
    { unfold Bank.main_loop.
      now apply (main_loop_upto_run 10 CIntFacts.ten_in_range). }
    split; [reflexivity|].
    split; [apply count_calls_main_loop_run_obs|].
    split; [apply count_calls_process_client_run_obs|].
    cbn [store].
    now apply (run_store_counter 10 CIntFacts.ten_in_range). }
  split.
  { intros fuel Hfuel. unfold Bank.main_loop.
    now apply (main_loop_upto_cut 10 CIntFacts.ten_in_range). }
  apply recursive_call_wf.
Qed.

(** C5.  Each pass of [process_client] calls [log_transaction], then
    [calculate_interest], then [update_balance], once each, and leaves
    the store they produce in that order; over a full run from counter 0
    the collaborator calls are eleven repetitions of that triple, so
    each collaborator is called 11 times and cycles do not interleave. *)
Theorem collaborators_called_in_order :
  (forall s : State World,
     exists (s' : State World) (t : list Obs),
       process_client s = Some (tt, s') /\
       store s' =
         update_balance (calculate_interest (log_transaction (store s))) /\
       trace s' = trace s ++ t /\
       count_calls f_process_client t = 1%nat /\
       collaborator_calls t =
         [f_log_transaction; f_calculate_interest; f_update_balance]) /\
  (forall (s : State World) (fuel : nat),
     global_counter (store s) = 0 ->
     (11 <= fuel)%nat ->
     exists (s' : State World) (t : list Obs),
       main_loop fuel s = Some (tt, s') /\
       trace s' = trace s ++ t /\
       collaborator_calls t =
         List.concat (repeat [f_log_transaction; f_calculate_interest;
                         f_update_balance] 11) /\
       count_calls f_log_transaction t = 11%nat /\
       count_calls f_calculate_interest t = 11%nat /\
       count_calls f_update_balance t = 11%nat).
Proof.
  split.
  - intros s.
    exists (mkState (cycle_store (store s))
                    (trace s ++ cycle_obs (global_counter (store s)))),
      (cycle_obs (global_counter (store s))).
    split; [apply process_client_run|].
    repeat split.
  - intros s fuel H0 Hfuel.
    exists (mkState (run_store 10 (store s)) (trace s ++ run_obs 10 0)),
      (run_obs 10 0).
    split; [now apply main_loop_from_zero|].
    repeat split.
Qed.

(** C6.  With threshold 0 and the counter at 0, the Loop Controller
    runs the Cycle Runner exactly once: the cycle precedes the only
    counter check, which fails, and the counter stays 0. *)
Theorem threshold_zero_single_cycle (s : State World) (fuel : nat) :
  global_counter (store s) = 0 ->
  (1 <= fuel)%nat ->
  exists (s' : State World) (t : list Obs),
    main_loop_upto 0 fuel s = Some (tt, s') /\
    trace s' = trace s ++ t /\
    t = mkObs (EvCall f_main_loop) 0 :: cycle_obs 0 ++ [mkObs EvRead 0] /\
    count_calls f_process_client t = 1%nat /\
    global_counter (store s') = 0.
Proof.
  intros H0 Hfuel.
  destruct fuel as [|fuel]; [lia|].
  exists (mkState (cycle_store (store s)) (trace s ++ activation_obs 0)),
    (activation_obs 0).
  split.
  { rewrite main_loop_upto_step. cbv zeta. rewrite H0. reflexivity. }
  repeat split.
  cbn [store]. now rewrite cycle_store_counter.
Qed.

(** C7.  [process_client] returns with [global_counter] as it found it
    and neither reads nor writes it itself.  Over a full run from
    counter 0, and over the whole process, the counter seen along the
    trace changes only at the writes of [main_loop], each time by
    exactly one; there are 10 such writes for 11 cycles, one after
    every cycle but the last, as [run_obs] lays them out. *)
Theorem counter_written_by_loop_controller_only :
  (forall s : State World,
     exists (s' : State World) (t : list Obs),
       process_client s = Some (tt, s') /\
       global_counter (store s') = global_counter (store s) /\
       trace s' = trace s ++ t /\
       filter is_read t = [] /\
       filter is_write t = []) /\
  (forall (s : State World) (fuel : nat),
     global_counter (store s) = 0 ->
     (11 <= fuel)%nat ->
     exists (s' : State World) (t : list Obs),
       main_loop fuel s = Some (tt, s') /\
       trace s' = trace s ++ t /\
       t = run_obs 10 0 /\
       only_incremented_at_writes 0 t = true /\
       count_writes t = 10%nat /\
       count_calls f_process_client t = S (count_writes t) /\
       global_counter (store s') = 0 + Z.of_nat (count_writes t)) /\
  (forall (w : World) (fuel : nat),
     (11 <= fuel)%nat ->
     exists s' : State World,
       main fuel (Bank.initial w) = Some (0, s') /\
       only_incremented_at_writes 0 (trace s') = true /\
       count_writes (trace s') = 10%nat).
Proof.
  split; [|split].
  - intros s.
    exists (mkState (cycle_store (store s))
                    (trace s ++ cycle_obs (global_counter (store s)))),
      (cycle_obs (global_counter (store s))).
    split; [apply process_client_run|].
    split; [apply cycle_store_counter|].
    repeat split.
  - intros s fuel H0 Hfuel.
    exists (mkState (run_store 10 (store s)) (trace s ++ run_obs 10 0)),
      (run_obs 10 0).
    split; [now apply main_loop_from_zero|].
    do 5 (split; [reflexivity|]).
    cbn [store]. now apply run_store_from_zero.
  - intros w fuel Hfuel.
    eexists. split; [now apply main_from_start|].
    split; reflexivity.
Qed.

(** C8.  Started on any world with enough stack for the run, [main]
    returns 0.  Its trace begins with its own entry, then the status
    line, then the entry of [main_loop]; that line is the only output
    of the core.  Whenever [main] returns at all, it returns 0. *)
Theorem main_prints_once_and_exits_zero :
  (forall (w : World) (fuel : nat),
     (11 <= fuel)%nat ->
     exists (s' : State World) (t : list Obs),
       main fuel (Bank.initial w) = Some (0, s') /\
       trace s' =
         mkObs (EvCall f_main) 0
         :: mkObs (EvOutput "Starting Bank System...") 0
         :: mkObs (EvCall f_main_loop) 0 :: t /\
       outputs (trace s') = ["Starting Bank System..."%string]) /\
  (forall (w : World) (fuel : nat) (r : Z) (s' : State World),
     main fuel (Bank.initial w) = Some (r, s') -> r = 0).
Proof.
  split.
  - intros w fuel Hfuel.
    eexists. eexists. split; [now apply main_from_start|].
    split; reflexivity.
  - intros w fuel r s' Hrun.
    pose proof (main_returns_inv w fuel r s' Hrun) as Hfuel.
    rewrite (main_from_start w fuel Hfuel) in Hrun.
    now inversion Hrun.
Qed.

(** C9.  Two executions of the process from a fresh start, on any two
    worlds and with any two sufficient stack allowances, both return,
    with the same trace, 11 cycles and final counter 10; and every
    execution that returns has 11 cycles and final counter 10.  The
    start state always has the counter at 0. *)
Theorem process_runs_agree :
  (forall (w1 w2 : World) (fuel1 fuel2 : nat),
     (11 <= fuel1)%nat ->
     (11 <= fuel2)%nat ->
     exists s1 s2 : State World,
       main fuel1 (Bank.initial w1) = Some (0, s1) /\
       main fuel2 (Bank.initial w2) = Some (0, s2) /\
       trace s1 = trace s2 /\
       count_calls f_process_client (trace s1) = 11%nat /\
       count_calls f_process_client (trace s2) = 11%nat /\
       global_counter (store s1) = 10 /\
       global_counter (store s2) = 10) /\
  (forall (w : World) (fuel : nat) (r : Z) (s' : State World),
     main fuel (Bank.initial w) = Some (r, s') ->
     count_calls f_process_client (trace s') = 11%nat /\
     global_counter (store s') = 10) /\
  (forall w : World, global_counter (store (Bank.initial w)) = 0).
Proof.
  split; [|split].
  - intros w1 w2 fuel1 fuel2 Hfuel1 Hfuel2.
    eexists. eexists.
    split; [now apply main_from_start|].
    split; [now apply main_from_start|].
    cbn [store trace].
    do 3 (split; [reflexivity|]).
    split; now apply run_store_from_zero.
  - intros w fuel r s' Hrun.
    pose proof (main_returns_inv w fuel r s' Hrun) as Hfuel.
    rewrite (main_from_start w fuel Hfuel) in Hrun.
    inversion Hrun; subst; clear Hrun. cbn [store trace].
    split; [reflexivity|now apply run_store_from_zero].
  - reflexivity.
Qed.

(** C10.  In a full run from counter 0 there are 11 activations of
    [main_loop]; the counter at the entry of the k-th one, and at the
    check after the k-th cycle, is k - 1, for every k from 1 to 11. *)
Theorem kth_activation_sees_k_minus_one (s : State World) (fuel : nat) :
  global_counter (store s) = 0 ->
  (11 <= fuel)%nat ->
  exists (s' : State World) (t : list Obs),
    main_loop fuel s = Some (tt, s') /\
    trace s' = trace s ++ t /\
    List.length (seen_at_calls f_main_loop t) = 11%nat /\
    List.length (seen_at_reads t) = 11%nat /\
    forall k : nat,
      (1 <= k <= 11)%nat ->
      nth_error (seen_at_calls f_main_loop t) (k - 1)
        = Some (Z.of_nat k - 1) /\
      nth_error (seen_at_reads t) (k - 1) = Some (Z.of_nat k - 1).
Proof.
  intros H0 Hfuel.
  exists (mkState (run_store 10 (store s)) (trace s ++ run_obs 10 0)),
    (run_obs 10 0).
  split; [now apply main_loop_from_zero|].
  do 3 (split; [reflexivity|]).
  intros k Hk.
  assert (Hcases : (k = 1 \/ k = 2 \/ k = 3 \/ k = 4 \/ k = 5 \/ k = 6 \/
                    k = 7 \/ k = 8 \/ k = 9 \/ k = 10 \/ k = 11)%nat)
    by lia.
  repeat (destruct Hcases as [->|Hcases]; [split; reflexivity|]).
  subst k. split; reflexivity.
Qed.

End Core.

(** ** The results at the sample collaborators *)

Lemma sample_log_transaction_frame : preserves_counter sample_log_transaction.
Proof. intros st; reflexivity. Qed.

Lemma sample_calculate_interest_frame :
  preserves_counter sample_calculate_interest.
Proof. intros st; reflexivity. Qed.

Lemma sample_update_balance_frame : preserves_counter sample_update_balance.
Proof. intros st; reflexivity. Qed.

Ltac at_samples thm :=
  apply (thm sample_log_transaction sample_calculate_interest
             sample_update_balance
             sample_log_transaction_frame
             sample_calculate_interest_frame
             sample_update_balance_frame).

Lemma cycle_runner_invoked_eleven_times_sample :
  global_counter (store (Bank.initial 100)) = 0 /\
  (11 <= 11)%nat /\
  exists (s' : State Z) (t : list Obs),
    sample_main_loop 11 (Bank.initial 100) = Some (tt, s') /\
    trace s' = trace (Bank.initial 100) ++ t /\
    count_calls f_process_client t = 11%nat.
Proof.
  split; [reflexivity|]. split; [lia|].
  at_samples (@cycle_runner_invoked_eleven_times Z); [reflexivity|lia].
Defined.

Lemma counter_monotone_bounded_final_sample :
  global_counter (store (Bank.initial 100)) = 0 /\
  (11 <= 12)%nat /\
  exists (s' : State Z) (t : list Obs),
    sample_main_loop 12 (Bank.initial 100) = Some (tt, s') /\
    trace s' = trace (Bank.initial 100) ++ t /\
    non_decreasing (map seen t) = true /\
    Forall (fun o => 0 <= seen o <= 10) t /\
    global_counter (store s') = 10.
Proof.
  split; [reflexivity|]. split; [lia|].
  at_samples (@counter_monotone_bounded_final Z); [reflexivity|lia].
Defined.

Lemma main_loop_activation_sample :
  CInt.in_range (global_counter (store sample_midway)) /\
  exists s1 : State Z,
    (observe (EvCall f_main_loop) ;; sample_process_client)%prog sample_midway
      = Some (tt, s1) /\
    count_calls f_process_client (trace s1)
      = S (count_calls f_process_client (trace sample_midway)) /\
    global_counter (store s1) = 4 /\
    (4 < 10 ->
     sample_main_loop 3 sample_midway =
     sample_main_loop 2
       (mkState (mkStore (4 + 1) (extern (store s1)))
                (trace s1 ++ [mkObs EvRead 4; mkObs EvWrite (4 + 1)]))) /\
    (10 <= 4 ->
     sample_main_loop 3 sample_midway =
     Some (tt, mkState (store s1) (trace s1 ++ [mkObs EvRead 4]))).
Proof.
  assert (Hc : CInt.in_range (global_counter (store sample_midway))).
  { unfold CInt.in_range, CInt.min_int, CInt.max_int. cbn. lia. }
  split; [exact Hc|].
  exact (main_loop_activation
           sample_log_transaction sample_calculate_interest
           sample_update_balance
           sample_log_transaction_frame sample_calculate_interest_frame
           sample_update_balance_frame sample_midway 2 Hc).
Defined.

Lemma loop_controller_terminates_sample :
  CInt.in_range (global_counter (store sample_midway)) /\
  (forall k : nat, (k <= 6)%nat ->
     spec_controller_run 10 k (running, 4) = (running, 4 + Z.of_nat k)) /\
  spec_controller_run 10 7 (running, 4) = (done, 10) /\
  (forall fuel : nat, (6 < fuel)%nat ->
     exists (s' : State Z) (t : list Obs),
       sample_main_loop fuel sample_midway = Some (tt, s') /\
       trace s' = trace sample_midway ++ t /\
       count_calls f_main_loop t = 7%nat /\
       count_calls f_process_client t = 7%nat /\
       global_counter (store s') = 10) /\
  (forall fuel : nat, (fuel <= 6)%nat ->
     sample_main_loop fuel sample_midway = None) /\
  well_founded (recursive_call 10).
Proof.
  assert (Hc : CInt.in_range (global_counter (store sample_midway))).
  { unfold CInt.in_range, CInt.min_int, CInt.max_int. cbn. lia. }
  split; [exact Hc|].
  exact (loop_controller_terminates
           sample_log_transaction sample_calculate_interest
           sample_update_balance
           sample_log_transaction_frame sample_calculate_interest_frame
           sample_update_balance_frame sample_midway Hc).
Defined.

Lemma collaborators_called_in_order_sample :
  (exists (s' : State Z) (t : list Obs),
     sample_process_client sample_midway = Some (tt, s') /\
     store s' = mkStore 4 206 /\
     trace s' = trace sample_midway ++ t /\
     count_calls f_process_client t = 1%nat /\
     collaborator_calls t =
       [f_log_transaction; f_calculate_interest; f_update_balance]) /\
  (global_counter (store (Bank.initial 100)) = 0 /\
   (11 <= 11)%nat /\
   exists (s' : State Z) (t : list Obs),
     sample_main_loop 11 (Bank.initial 100) = Some (tt, s') /\
     trace s' = trace (Bank.initial 100) ++ t /\
     collaborator_calls t =
       List.concat (repeat [f_log_transaction; f_calculate_interest;
                            f_update_balance] 11) /\
     count_calls f_log_transaction t = 11%nat /\
     count_calls f_calculate_interest t = 11%nat /\
     count_calls f_update_balance t = 11%nat).
Proof.
  destruct (collaborators_called_in_order
              sample_log_transaction sample_calculate_interest
              sample_update_balance
              sample_log_transaction_frame sample_calculate_interest_frame
              sample_update_balance_frame) as [Hcycle Hrun].
  split.
  - exact (Hcycle sample_midway).
  - split; [reflexivity|]. split; [lia|].
    apply Hrun; [reflexivity|lia].
Defined.

Lemma threshold_zero_single_cycle_sample :
  global_counter (store (Bank.initial 100)) = 0 /\
  (1 <= 5)%nat /\
  exists (s' : State Z) (t : list Obs),
    sample_main_loop_upto 0 5 (Bank.initial 100) = Some (tt, s') /\
    trace s' = trace (Bank.initial 100) ++ t /\
    t = mkObs (EvCall f_main_loop) 0 :: cycle_obs 0 ++ [mkObs EvRead 0] /\
    count_calls f_process_client t = 1%nat /\
    global_counter (store s') = 0.
Proof.
  split; [reflexivity|]. split; [lia|].
  at_samples (@threshold_zero_single_cycle Z); [reflexivity|lia].
Defined.

Lemma counter_written_by_loop_controller_only_sample :
  (exists (s' : State Z) (t : list Obs),
     sample_process_client sample_midway = Some (tt, s') /\
     global_counter (store s') = global_counter (store sample_midway) /\
     trace s' = trace sample_midway ++ t /\
     filter is_read t = [] /\
     filter is_write t = []) /\
  (global_counter (store (Bank.initial 100)) = 0 /\
   (11 <= 11)%nat /\
   exists (s' : State Z) (t : list Obs),
     sample_main_loop 11 (Bank.initial 100) = Some (tt, s') /\
     trace s' = trace (Bank.initial 100) ++ t /\
     t = run_obs 10 0 /\
     only_incremented_at_writes 0 t = true /\
     count_writes t = 10%nat /\
     count_calls f_process_client t = S (count_writes t) /\
     global_counter (store s') = 0 + Z.of_nat (count_writes t)) /\
  ((11 <= 11)%nat /\
   exists s' : State Z,
     sample_main 11 (Bank.initial 100) = Some (0, s') /\
     only_incremented_at_writes 0 (trace s') = true /\
     count_writes (trace s') = 10%nat).
Proof.
  destruct (counter_written_by_loop_controller_only
              sample_log_transaction sample_calculate_interest
              sample_update_balance
              sample_log_transaction_frame sample_calculate_interest_frame
              sample_update_balance_frame) as [Hcycle [Hrun Hmain]].
  split; [exact (Hcycle sample_midway)|].
  split.
  - split; [reflexivity|]. split; [lia|].
    apply Hrun; [reflexivity|lia].
  - split; [lia|]. apply Hmain. lia.
Defined.

Lemma main_prints_once_and_exits_zero_sample :
  ((11 <= 11)%nat /\
   exists (s' : State Z) (t : list Obs),
     sample_main 11 (Bank.initial 100) = Some (0, s') /\
     trace s' =
       mkObs (EvCall f_main) 0
       :: mkObs (EvOutput "Starting Bank System...") 0
       :: mkObs (EvCall f_main_loop) 0 :: t /\
     outputs (trace s') = ["Starting Bank System..."%string]) /\
  (forall (r : Z) (s' : State Z),
     sample_main 11 (Bank.initial 100) = Some (r, s') -> r = 0).
Proof.
  destruct (main_prints_once_and_exits_zero
              sample_log_transaction sample_calculate_interest
              sample_update_balance
              sample_log_transaction_frame sample_calculate_interest_frame
              sample_update_balance_frame) as [Hrun Hzero].
  split.
  - split; [lia|]. apply Hrun. lia.
  - exact (Hzero 100 11%nat).
Defined.

Lemma process_runs_agree_sample :
  ((11 <= 11)%nat /\
   (11 <= 40)%nat /\
   exists s1 s2 : State Z,
     sample_main 11 (Bank.initial 100) = Some (0, s1) /\
     sample_main 40 (Bank.initial (-7)) = Some (0, s2) /\
     trace s1 = trace s2 /\
     count_calls f_process_client (trace s1) = 11%nat /\
     count_calls f_process_client (trace s2) = 11%nat /\
     global_counter (store s1) = 10 /\
     global_counter (store s2) = 10) /\
  (forall (r : Z) (s' : State Z),
     sample_main 11 (Bank.initial 100) = Some (r, s') ->
     count_calls f_process_client (trace s') = 11%nat /\
     global_counter (store s') = 10) /\
  global_counter (store (Bank.initial 100)) = 0.
Proof.
  destruct (process_runs_agree
              sample_log_transaction sample_calculate_interest
              sample_update_balance
              sample_log_transaction_frame sample_calculate_interest_frame
              sample_update_balance_frame) as [Hpair [Hany Hstart]].
  split.
  - split; [lia|]. split; [lia|]. apply Hpair; lia.
  - split; [exact (Hany 100 11%nat)|exact (Hstart 100)].
Defined.

Lemma kth_activation_sees_k_minus_one_sample :
  global_counter (store (Bank.initial 100)) = 0 /\
  (11 <= 11)%nat /\
  exists (s' : State Z) (t : list Obs),
    sample_main_loop 11 (Bank.initial 100) = Some (tt, s') /\
    trace s' = trace (Bank.initial 100) ++ t /\
    List.length (seen_at_calls f_main_loop t) = 11%nat /\
    List.length (seen_at_reads t) = 11%nat /\
    forall k : nat,
      (1 <= k <= 11)%nat ->
      nth_error (seen_at_calls f_main_loop t) (k - 1)
        = Some (Z.of_nat k - 1) /\
      nth_error (seen_at_reads t) (k - 1) = Some (Z.of_nat k - 1).
Proof.
  split; [reflexivity|]. split; [lia|].
  at_samples (@kth_activation_sees_k_minus_one Z); [reflexivity|lia].
Defined.


(** * The core against arbitrary collaborators *)

(** ** More facts about traces *)

Lemma count_writes_app (t1 t2 : list Obs) :
  count_writes (t1 ++ t2) = (count_writes t1 + count_writes t2)%nat.
Proof. unfold count_writes; now rewrite filter_app, length_app. Qed.

Lemma outputs_app (t1 t2 : list Obs) :
  outputs (t1 ++ t2) = outputs t1 ++ outputs t2.
Proof.
  induction t1 as [|o t1 IH]; [reflexivity|].
  cbn [app outputs]. destruct (event o); rewrite IH; reflexivity.
Qed.

Lemma collaborator_calls_app (t1 t2 : list Obs) :
  collaborator_calls (t1 ++ t2)
  = collaborator_calls t1 ++ collaborator_calls t2.
Proof.
  induction t1 as [|o t1 IH]; [reflexivity|].
  cbn [app collaborator_calls].
  destruct (event o) as [f| | |]; rewrite IH; try reflexivity.
  destruct (is_collaborator f); reflexivity.
Qed.

Section AnyCollaborators.

Context {World : Type}.
Variables log_transaction calculate_interest update_balance
  : Store World -> Store World.

Local Abbreviation process_client :=
  (Bank.process_client log_transaction calculate_interest update_balance).
Local Abbreviation main_loop_upto :=
  (Bank.main_loop_upto log_transaction calculate_interest update_balance).
Local Abbreviation main_loop :=
  (Bank.main_loop log_transaction calculate_interest update_balance).
Local Abbreviation main :=
  (Bank.main log_transaction calculate_interest update_balance).
Local Abbreviation cycle_store :=
  (Expected.cycle_store log_transaction calculate_interest update_balance).
Local Abbreviation activation :=
  (Observed.activation log_transaction calculate_interest update_balance).

(** One activation, whatever the collaborators do: the test is made on
    the counter as [update_balance] returns it. *)
Lemma main_loop_upto_unfold (limit : Z) (fuel : nat) (s : State World) :
  main_loop_upto limit (S fuel) s =
  let st := cycle_store (store s) in
  if global_counter st <? limit then
    main_loop_upto limit fuel
      (mkState (Expected.bump st)
               (trace s ++ activation (store s)
                ++ [mkObs EvWrite (CInt.incr (global_counter st))]))
  else
    Some (tt, mkState st (trace s ++ activation (store s))).
Proof.
  cbn [Bank.main_loop_upto].
  unfold Bank.process_client, call_extern, read_counter, incr_counter,
    observe, bind, ret, CInt.lt, Expected.cycle_store, Expected.bump,
    Observed.activation.
  cbn [store trace global_counter extern]. cbv zeta.
  destruct (global_counter
              (update_balance (calculate_interest
                                 (log_transaction (store s)))) <? limit);
    cbn [store trace global_counter extern];
    repeat rewrite <- app_assoc; reflexivity.
Qed.

Lemma main_loop_upto_zero_fuel (limit : Z) (s : State World) :
  main_loop_upto limit 0 s = None.
Proof. reflexivity. Qed.

(** What every returning run looks like, by induction on the fuel. *)
Lemma main_loop_upto_returns (limit : Z) :
  forall (fuel : nat) (s s' : State World),
    main_loop_upto limit fuel s = Some (tt, s') ->
    exists t : list Obs,
      trace s' = trace s ++ t /\
      limit <= global_counter (store s') /\
      outputs t = [] /\
      count_calls f_process_client t = S (count_writes t) /\
      count_calls f_main_loop t = count_calls f_process_client t /\
      collaborator_calls t =
        List.concat (repeat pipeline_calls
                            (count_calls f_process_client t)) /\
      (count_calls f_process_client t <= fuel)%nat.
Proof.
  induction fuel as [|fuel IH]; intros s s' Hrun.
  - rewrite main_loop_upto_zero_fuel in Hrun. discriminate.
  - rewrite main_loop_upto_unfold in Hrun. cbv zeta in Hrun.
    destruct (Z.ltb_spec (global_counter (cycle_store (store s))) limit)
      as [Hlt|Hge].
    + apply IH in Hrun.
      destruct Hrun as (t & Htr & Hc & Hout & Hpc & Hml & Hcol & Hfuel).
      cbn [trace] in Htr.
      exists (activation (store s)
              ++ [mkObs EvWrite
                        (CInt.incr (global_counter
                                      (cycle_store (store s))))]
              ++ t).
      split; [rewrite Htr; now repeat rewrite <- app_assoc|].
      split; [exact Hc|].
      rewrite Hpc in Hml, Hcol, Hfuel.
      rewrite !outputs_app, !count_calls_app, !count_writes_app,
        !collaborator_calls_app, Hout, Hml, Hcol, Hpc.
      repeat split; try reflexivity.
      cbn. lia.
    + inversion Hrun; subst; clear Hrun. cbn [store trace].
      exists (activation (store s)).
      repeat split; try reflexivity; try assumption.
      cbn. lia.
Qed.

Lemma cycle_store_raises (st : Store World) :
  raises_counter log_transaction ->
  raises_counter calculate_interest ->
  raises_counter update_balance ->
  CInt.in_range (global_counter st) ->
  global_counter st <= global_counter (cycle_store st) /\
  CInt.in_range (global_counter (cycle_store st)).
Proof.
  intros Hl Hc Hu Hst. unfold Expected.cycle_store.
  destruct (Hl st Hst) as [Hle1 Hr1].
  destruct (Hc _ Hr1) as [Hle2 Hr2].
  destruct (Hu _ Hr2) as [Hle3 Hr3].
  split; [lia|exact Hr3].
Qed.

Lemma cycle_store_keeps_int (st : Store World) :
  keeps_int log_transaction ->
  keeps_int calculate_interest ->
  keeps_int update_balance ->
  CInt.in_range (global_counter st) ->
  CInt.in_range (global_counter (cycle_store st)).
Proof.
  intros Hl Hc Hu Hst. unfold Expected.cycle_store.
  apply Hu, Hc, Hl, Hst.
Qed.

(** ** Further properties *)

(** X1.  Whatever the collaborators do to the store, a call of
    [main_loop] that returns leaves [global_counter] at 10 or above, has
    printed nothing, has run one cycle more than it has incremented the
    counter, one cycle per activation, with the collaborators called in
    whole triples log, calculate, update; and it has not stacked more
    activations than its fuel. *)
Theorem main_loop_returns_at_or_above_ten
        (fuel : nat) (s s' : State World) :
  main_loop fuel s = Some (tt, s') ->
  exists t : list Obs,
    trace s' = trace s ++ t /\
    10 <= global_counter (store s') /\
    outputs t = [] /\
    count_calls f_process_client t = S (count_writes t) /\
    count_calls f_main_loop t = count_calls f_process_client t /\
    collaborator_calls t =
      List.concat (repeat pipeline_calls
                          (count_calls f_process_client t)) /\
    (count_calls f_process_client t <= fuel)%nat.
Proof. unfold Bank.main_loop. apply main_loop_upto_returns. Qed.

(** X2.  When [update_balance] always returns with [global_counter]
    below 10, [main_loop] never returns, however much fuel it gets, and
    neither does [main]: the test is made on the counter as the
    collaborators leave it. *)
Theorem main_loop_never_returns :
  (forall st, global_counter (update_balance st) < 10) ->
  forall (fuel : nat) (s : State World),
    main_loop fuel s = None /\ main fuel s = None.
Proof.
  intros Hlow.
  assert (Hloop : forall (fuel : nat) (s : State World),
             main_loop_upto 10 fuel s = None).
  { induction fuel as [|fuel IH]; intros s; [reflexivity|].
    rewrite main_loop_upto_unfold. cbv zeta.
    destruct (Z.ltb_spec (global_counter (cycle_store (store s))) 10)
      as [_|Hge]; [apply IH|].
    unfold Expected.cycle_store in Hge.
    specialize (Hlow (calculate_interest (log_transaction (store s)))).
    lia. }
  intros fuel s. unfold Bank.main, Bank.main_loop, put_line.
  split; [apply Hloop|].
  unfold bind at 1, observe at 1.
  unfold bind at 1, observe at 1.
  unfold bind at 1. now rewrite Hloop.
Qed.

(** X3.  When the collaborators never lower [global_counter] and leave
    an [int] in it, [main_loop] still returns from every [int] starting
    counter [c] once its fuel exceeds [recursions_left 10 c]; it runs at
    least one and at most [recursions_left 10 c + 1] cycles and returns
    with the counter at 10 or above and not below [c]. *)
Theorem main_loop_returns_when_counter_raised (s : State World) :
  raises_counter log_transaction ->
  raises_counter calculate_interest ->
  raises_counter update_balance ->
  CInt.in_range (global_counter (store s)) ->
  forall fuel : nat,
    (recursions_left 10 (global_counter (store s)) < fuel)%nat ->
    exists (s' : State World) (t : list Obs),
      main_loop fuel s = Some (tt, s') /\
      trace s' = trace s ++ t /\
      (1 <= count_calls f_process_client t
       <= S (recursions_left 10 (global_counter (store s))))%nat /\
      10 <= global_counter (store s') /\
      global_counter (store s) <= global_counter (store s').
Proof.
  intros Hl Hc Hu Hs fuel Hfuel.
  remember (recursions_left 10 (global_counter (store s))) as n eqn:Hn.
  assert (Hle : (recursions_left 10 (global_counter (store s)) <= n)%nat)
    by lia.
  rewrite Hn. clear Hn.
  revert s fuel Hs Hfuel Hle.
  unfold Bank.main_loop, recursions_left.
  induction n as [|n IH]; intros s fuel Hs Hfuel Hle;
    (destruct fuel as [|fuel]; [lia|]);
    rewrite main_loop_upto_unfold; cbv zeta;
    destruct (cycle_store_raises (store s) Hl Hc Hu Hs) as [Hup Hr];
    destruct (Z.ltb_spec (global_counter (cycle_store (store s))) 10)
      as [Hlt|Hge];
    try lia;
    try (exists (mkState (cycle_store (store s))
                         (trace s ++ activation (store s))),
           (activation (store s));
         cbn [store trace];
         repeat split; try reflexivity; try assumption; cbn; lia).
  destruct (IH (mkState (Expected.bump (cycle_store (store s)))
                        (trace s ++ activation (store s)
                         ++ [mkObs EvWrite
                                   (CInt.incr (global_counter
                                                 (cycle_store (store s))))]))
               fuel)
    as (s' & t & Hrun & Htr & Hcount & Hfin & Hmono);
    cbn [store trace global_counter Expected.bump] in *;
    try rewrite (CIntFacts.incr_below _ 10 Hr CIntFacts.ten_in_range Hlt)
      in *.
  - now apply (CIntFacts.in_range_succ _ 10).
  - lia.
  - lia.
  - exists s',
      (activation (store s)
       ++ [mkObs EvWrite (global_counter (cycle_store (store s)) + 1)]
       ++ t).
    split; [exact Hrun|].
    split; [rewrite Htr; now repeat rewrite <- app_assoc|].
    rewrite !count_calls_app.
    change (count_calls f_process_client (activation (store s)))
      with 1%nat.
    change (count_calls f_process_client
              [mkObs EvWrite (global_counter (cycle_store (store s)) + 1)])
      with 0%nat.
    repeat split; lia.
Qed.

(** X4.  When the collaborators leave an [int] in [global_counter], every
    write of the counter made during a call of [main_loop] that returns
    comes directly after the read of the test, the value read was below
    10 and the value written is exactly that value plus one: the
    increment never wraps around and never stores more than 10.  The
    counter is still an [int] on return. *)
Theorem counter_increment_never_wraps (fuel : nat) (s s' : State World) :
  keeps_int log_transaction ->
  keeps_int calculate_interest ->
  keeps_int update_balance ->
  CInt.in_range (global_counter (store s)) ->
  main_loop fuel s = Some (tt, s') ->
  exists t : list Obs,
    trace s' = trace s ++ t /\
    writes_follow_reads None t = true /\
    CInt.in_range (global_counter (store s')).
Proof.
  intros Hl Hc Hu. unfold Bank.main_loop.
  revert s s'. induction fuel as [|fuel IH]; intros s s' Hs Hrun.
  - rewrite main_loop_upto_zero_fuel in Hrun. discriminate.
  - rewrite main_loop_upto_unfold in Hrun. cbv zeta in Hrun.
    pose proof (cycle_store_keeps_int (store s) Hl Hc Hu Hs) as Hr.
    destruct (Z.ltb_spec (global_counter (cycle_store (store s))) 10)
      as [Hlt|Hge].
    + rewrite (CIntFacts.incr_below _ 10 Hr CIntFacts.ten_in_range Hlt)
        in Hrun.
      apply IH in Hrun.
      * destruct Hrun as (t & Htr & Hw & Hfin). cbn [trace] in Htr.
        exists (activation (store s)
                ++ [mkObs EvWrite
                          (global_counter (cycle_store (store s)) + 1)]
                ++ t).
        split; [rewrite Htr; now repeat rewrite <- app_assoc|].
        split; [|exact Hfin].
        unfold Observed.activation. cbv zeta.
        cbn [app writes_follow_reads event seen].
        fold (cycle_store (store s)).
        rewrite Hw, Z.eqb_refl.
        destruct (Z.ltb_spec (global_counter (cycle_store (store s))) 10);
          [reflexivity|lia].
      * cbn [store global_counter Expected.bump].
        rewrite (CIntFacts.incr_below _ 10 Hr CIntFacts.ten_in_range Hlt).
        now apply (CIntFacts.in_range_succ _ 10).
    + inversion Hrun; subst; clear Hrun. cbn [store trace].
      exists (activation (store s)).
      split; [reflexivity|]. split; [reflexivity|exact Hr].
Qed.

(** X5.  Whatever the collaborators do, a run of [main] that returns has
    exit status 0; its trace is extended by the entry of [main], the
    status line, and a run of the loop that prints nothing, so exactly
    one line is printed; the counter is 10 or above at exit. *)
Theorem main_returns_zero_after_one_line
        (fuel : nat) (s s' : State World) (r : Z) :
  main fuel s = Some (r, s') ->
  r = 0 /\
  10 <= global_counter (store s') /\
  exists t : list Obs,
    trace s' =
      trace s
      ++ mkObs (EvCall f_main) (global_counter (store s))
      :: mkObs (EvOutput "Starting Bank System...")
               (global_counter (store s))
      :: t /\
    outputs t = [] /\
    (1 <= count_calls f_process_client t <= fuel)%nat.
Proof.
  unfold Bank.main, Bank.main_loop, put_line.
  unfold bind at 1, observe at 1. cbn [store trace].
  unfold bind at 1, observe at 1. cbn [store trace].
  unfold bind at 1.
  destruct (main_loop_upto 10 fuel _) as [[[] s1]|] eqn:Hloop;
    [|discriminate].
  unfold ret. intros Hret. inversion Hret; subst; clear Hret.
  apply main_loop_upto_returns in Hloop.
  destruct Hloop as (t & Htr & Hc & Hout & Hpc & _ & _ & Hfuel).
  cbn [trace] in Htr.
  split; [reflexivity|]. split; [exact Hc|].
  exists t. split; [rewrite Htr; now repeat rewrite <- app_assoc|].
  split; [exact Hout|]. lia.
Qed.

End AnyCollaborators.

(** ** Runs under collaborators that leave the counter alone *)

Section CounterLeftAlone.

Context {World : Type}.
Variables log_transaction calculate_interest update_balance
  : Store World -> Store World.

Hypothesis log_transaction_frame : preserves_counter log_transaction.
Hypothesis calculate_interest_frame : preserves_counter calculate_interest.
Hypothesis update_balance_frame : preserves_counter update_balance.

Local Abbreviation main_loop :=
  (Bank.main_loop log_transaction calculate_interest update_balance).
Local Abbreviation run_store :=
  (Expected.run_store log_transaction calculate_interest update_balance).

(** X6.  [global_counter] is never put back to 0: when [main_loop] is
    called again after a full run from counter 0, the second call returns
    after a single cycle with no further write, so both calls together
    make 12 cycles and 10 writes and leave the counter at 10. *)
Theorem main_loop_called_twice (s : State World) (fuel1 fuel2 : nat) :
  global_counter (store s) = 0 ->
  (11 <= fuel1)%nat ->
  (1 <= fuel2)%nat ->
  exists (s' : State World) (t : list Obs),
    (main_loop fuel1 ;; main_loop fuel2)%prog s = Some (tt, s') /\
    trace s' = trace s ++ t /\
    t = run_obs 10 0 ++ activation_obs 10 /\
    count_calls f_process_client t = 12%nat /\
    count_writes t = 10%nat /\
    global_counter (store s') = 10.
Proof.
  intros H0 Hfuel1 Hfuel2.
  pose proof (run_store_from_zero
                log_transaction calculate_interest update_balance
                log_transaction_frame calculate_interest_frame
                update_balance_frame (store s) H0) as Hten.
  assert (Hr : CInt.in_range (global_counter (run_store 10 (store s)))).
  { rewrite Hten. apply CIntFacts.ten_in_range. }
  exists (mkState (run_store 0 (run_store 10 (store s)))
                  ((trace s ++ run_obs 10 0) ++ run_obs 0 10)),
    (run_obs 10 0 ++ activation_obs 10).
  split.
  { unfold bind.
    rewrite (main_loop_from_zero
               log_transaction calculate_interest update_balance
               log_transaction_frame calculate_interest_frame
               update_balance_frame s fuel1 H0 Hfuel1).
    unfold Bank.main_loop.
    rewrite (main_loop_upto_run
               log_transaction calculate_interest update_balance
               log_transaction_frame calculate_interest_frame
               update_balance_frame 10 CIntFacts.ten_in_range 0 fuel2);
      cbn [store trace]; rewrite ?Hten; try reflexivity; try lia.
    apply CIntFacts.ten_in_range. }
  split; [cbn [trace run_obs]; now rewrite <- app_assoc|].
  do 3 (split; [reflexivity|]).
  cbn [store].
  rewrite (run_store_counter
             log_transaction calculate_interest update_balance
             log_transaction_frame calculate_interest_frame
             update_balance_frame 10 CIntFacts.ten_in_range 0);
    rewrite ?Hten; try reflexivity.
  apply CIntFacts.ten_in_range.
Qed.

End CounterLeftAlone.

(** ** Collaborators that work on the world only *)

Lemma on_world_preserves_counter {World : Type} (g : World -> World) :
  preserves_counter (on_world g).
Proof. intros st; reflexivity. Qed.

Lemma run_store_on_world_extern {World : Type} (l c u : World -> World) :
  forall (n : nat) (st : Store World),
    extern (Expected.run_store (on_world l) (on_world c) (on_world u) n st)
    = Nat.iter (S n) (fun x => u (c (l x))) (extern st).
Proof.
  induction n as [|n IH]; intros st; [reflexivity|].
  cbn [Expected.run_store]. rewrite IH.
  rewrite (Nat.iter_succ_r (S n)). reflexivity.
Qed.

(** X7.  With collaborators that work on the external world only, a run
    of the whole process returns 0 for every fuel from 11 on and leaves
    the world that eleven passes of log, calculate, update (in that
    order) make of the initial one, with the counter at 10. *)
Theorem full_run_applies_pipeline_eleven_times
        {World : Type} (l c u : World -> World) (w : World) (fuel : nat) :
  (11 <= fuel)%nat ->
  exists s' : State World,
    Bank.main (on_world l) (on_world c) (on_world u) fuel (Bank.initial w)
      = Some (0, s') /\
    store s' = mkStore 10 (Nat.iter 11 (fun x => u (c (l x))) w).
Proof.
  intros Hfuel. eexists. split.
  - apply main_from_start; try apply on_world_preserves_counter.
    exact Hfuel.
  - cbn [store].
    pose proof (run_store_from_zero
                  (on_world l) (on_world c) (on_world u)
                  (on_world_preserves_counter l)
                  (on_world_preserves_counter c)
                  (on_world_preserves_counter u)
                  (mkStore 0 w) eq_refl) as Hten.
    pose proof (run_store_on_world_extern l c u 10 (mkStore 0 w)) as Hext.
    destruct (Expected.run_store (on_world l) (on_world c) (on_world u)
                                 10 (mkStore 0 w)) as [k x].
    cbn [global_counter extern] in Hten, Hext. now subst.
Qed.


(** ** The further properties at sample collaborators *)

Lemma sample_log_transaction_raises : raises_counter sample_log_transaction.
Proof. intros st Hst; cbn; split; [lia|exact Hst]. Qed.

Lemma skipping_calculate_interest_raises :
  raises_counter skipping_calculate_interest.
Proof.
  intros st.
  unfold skipping_calculate_interest, CInt.in_range, CInt.min_int,
    CInt.max_int.
  cbn [global_counter]. lia.
Qed.

Lemma sample_update_balance_raises : raises_counter sample_update_balance.
Proof. intros st Hst; cbn; split; [lia|exact Hst]. Qed.

Lemma raises_counter_keeps_int {World : Type}
      (f : Store World -> Store World) :
  raises_counter f -> keeps_int f.
Proof. intros Hf st Hst. now destruct (Hf st Hst). Qed.

Lemma main_loop_returns_at_or_above_ten_sample :
  skipping_main_loop 11 (Bank.initial 100)
    = Some (tt, skipping_main_loop_end) /\
  exists t : list Obs,
    trace skipping_main_loop_end = trace (Bank.initial 100) ++ t /\
    10 <= global_counter (store skipping_main_loop_end) /\
    outputs t = [] /\
    count_calls f_process_client t = S (count_writes t) /\
    count_calls f_main_loop t = count_calls f_process_client t /\
    collaborator_calls t =
      List.concat (repeat pipeline_calls
                          (count_calls f_process_client t)) /\
    (count_calls f_process_client t <= 11)%nat.
Proof.
  unfold skipping_main_loop.
  assert (Hrun : Bank.main_loop
                   sample_log_transaction skipping_calculate_interest
                   sample_update_balance 11 (Bank.initial 100)
                 = Some (tt, skipping_main_loop_end))
    by (vm_compute; reflexivity).
  split; [exact Hrun|].
  exact (main_loop_returns_at_or_above_ten
           sample_log_transaction skipping_calculate_interest
           sample_update_balance 11 (Bank.initial 100)
           skipping_main_loop_end Hrun).
Defined.

Lemma main_loop_never_returns_sample :
  (forall st, global_counter (resetting_update_balance st) < 10) /\
  resetting_main_loop 40 (Bank.initial 100) = None /\
  resetting_main 40 (Bank.initial 100) = None.
Proof.
  assert (Hlow : forall st, global_counter (resetting_update_balance st) < 10)
    by (intros st; cbn; lia).
  split; [exact Hlow|].
  exact (main_loop_never_returns
           sample_log_transaction sample_calculate_interest
           resetting_update_balance Hlow 40%nat (Bank.initial 100)).
Defined.

Lemma main_loop_returns_when_counter_raised_sample :
  CInt.in_range (global_counter (store sample_midway)) /\
  (recursions_left 10 (global_counter (store sample_midway)) < 7)%nat /\
  exists (s' : State Z) (t : list Obs),
    skipping_main_loop 7 sample_midway = Some (tt, s') /\
    trace s' = trace sample_midway ++ t /\
    (1 <= count_calls f_process_client t
     <= S (recursions_left 10 (global_counter (store sample_midway))))%nat /\
    10 <= global_counter (store s') /\
    global_counter (store sample_midway) <= global_counter (store s').
Proof.
  assert (Hc : CInt.in_range (global_counter (store sample_midway))).
  { unfold CInt.in_range, CInt.min_int, CInt.max_int. cbn. lia. }
  assert (Hfuel : (recursions_left 10 (global_counter (store sample_midway))
                   < 7)%nat).
  { unfold recursions_left. cbn. lia. }
  split; [exact Hc|]. split; [exact Hfuel|].
  exact (main_loop_returns_when_counter_raised
           sample_log_transaction skipping_calculate_interest
           sample_update_balance sample_midway
           sample_log_transaction_raises skipping_calculate_interest_raises
           sample_update_balance_raises Hc 7%nat Hfuel).
Defined.

Lemma counter_increment_never_wraps_sample :
  CInt.in_range (global_counter (store (Bank.initial 100))) /\
  skipping_main_loop 11 (Bank.initial 100)
    = Some (tt, skipping_main_loop_end) /\
  exists t : list Obs,
    trace skipping_main_loop_end = trace (Bank.initial 100) ++ t /\
    writes_follow_reads None t = true /\
    CInt.in_range (global_counter (store skipping_main_loop_end)).
Proof.
  unfold skipping_main_loop.
  assert (Hc : CInt.in_range (global_counter (store (Bank.initial 100)))).
  { unfold CInt.in_range, CInt.min_int, CInt.max_int. cbn. lia. }
  assert (Hrun : Bank.main_loop
                   sample_log_transaction skipping_calculate_interest
                   sample_update_balance 11 (Bank.initial 100)
                 = Some (tt, skipping_main_loop_end))
    by (vm_compute; reflexivity).
  split; [exact Hc|]. split; [exact Hrun|].
  exact (counter_increment_never_wraps
           sample_log_transaction skipping_calculate_interest
           sample_update_balance 11 (Bank.initial 100)
           skipping_main_loop_end
           (raises_counter_keeps_int _ sample_log_transaction_raises)
           (raises_counter_keeps_int _ skipping_calculate_interest_raises)
           (raises_counter_keeps_int _ sample_update_balance_raises)
           Hc Hrun).
Defined.

Lemma main_returns_zero_after_one_line_sample :
  skipping_main 11 (Bank.initial 100) = Some (0, skipping_main_end) /\
  0 = 0 /\
  10 <= global_counter (store skipping_main_end) /\
  exists t : list Obs,
    trace skipping_main_end =
      trace (Bank.initial 100)
      ++ mkObs (EvCall f_main) (global_counter (store (Bank.initial 100)))
      :: mkObs (EvOutput "Starting Bank System...")
               (global_counter (store (Bank.initial 100)))
      :: t /\
    outputs t = [] /\
    (1 <= count_calls f_process_client t <= 11)%nat.
Proof.
  unfold skipping_main.
  assert (Hrun : Bank.main
                   sample_log_transaction skipping_calculate_interest
                   sample_update_balance 11 (Bank.initial 100)
                 = Some (0, skipping_main_end))
    by (vm_compute; reflexivity).
  split; [exact Hrun|].
  exact (main_returns_zero_after_one_line
           sample_log_transaction skipping_calculate_interest
           sample_update_balance 11 (Bank.initial 100)
           skipping_main_end 0 Hrun).
Defined.

Lemma main_loop_called_twice_sample :
  global_counter (store (Bank.initial 100)) = 0 /\
  (11 <= 11)%nat /\
  (1 <= 1)%nat /\
  exists (s' : State Z) (t : list Obs),
    (sample_main_loop 11 ;; sample_main_loop 1)%prog (Bank.initial 100)
      = Some (tt, s') /\
    trace s' = trace (Bank.initial 100) ++ t /\
    t = run_obs 10 0 ++ activation_obs 10 /\
    count_calls f_process_client t = 12%nat /\
    count_writes t = 10%nat /\
    global_counter (store s') = 10.
Proof.
  split; [reflexivity|]. split; [lia|]. split; [lia|].
  at_samples (@main_loop_called_twice Z); [reflexivity|lia|lia].
Defined.

Lemma full_run_applies_pipeline_eleven_times_sample :
  (11 <= 11)%nat /\
  exists s' : State Z,
    Bank.main (on_world (fun x => x + 1)) (on_world (fun x => 2 * x))
              (on_world (fun x => x - 3)) 11 (Bank.initial 100)
      = Some (0, s') /\
    store s' =
      mkStore 10 (Nat.iter 11 (fun x => 2 * (x + 1) - 3) 100).
Proof.
  split; [lia|].
  apply (full_run_applies_pipeline_eleven_times
           (fun x => x + 1) (fun x => 2 * x) (fun x => x - 3) 100 11).
  lia.
Defined.
